(** * web-scraper-project: the fetcher and the validation pipeline

    A shallow embedding of [fetcher.py] and [validators.py], and the
    properties of the retry protocol and of the validation statistics.

    Conventions of the embedding.
    - Python [int] is [Z]; a Python [float] delay is an exact rational [Q]:
      the rounding of binary floating point is not modelled.  Module
      [Fetcher] reads fetcher.py over numbers and a timer without bounds;
      module [Limits] reads the same code with the bounds of the platform:
      the range of [float], the range of the timer behind [time.sleep],
      and the timeouts the transport accepts.
    - A string is the sequence of its bytes; where the code counts
      characters ([len]) the count is taken from the library.
    - A dict with string keys is a [gmap string _].
    - An effectful function takes the world and returns its result together
      with the new world; a raised exception is a result of its own, and
      the effects performed before the raise stay in the world.
    - Calls to [logger] are left out: they neither return a value that is
      used nor change the control flow. *)

From Stdlib Require Import ZArith QArith List Ascii String Lia.
From stdpp Require Import gmap strings list fin_maps sorting.
Import ListNotations.

Set Warnings "-register-all".
Local Open Scope Z_scope.

(** ** Python control flow: exceptions, early return from a loop *)

Module Py.

(** A computation over a world [W] that returns an [A] or raises an [E]. *)
Inductive result (E A : Type) : Type :=
| Ret (a : A)
| Raise (e : E).
Arguments Ret {E A} a.
Arguments Raise {E A} e.

Definition M (W E A : Type) : Type := W -> result E A * W.

Definition ret {W E A} (a : A) : M W E A := fun w => (Ret a, w).

Definition raise {W E A} (e : E) : M W E A := fun w => (Raise e, w).

Definition bind {W E A B} (c : M W E A) (k : A -> M W E B) : M W E B :=
  fun w =>
    match c w with
    | (Ret a, w') => k a w'
    | (Raise e, w') => (Raise e, w')
    end.

(** [try: body  except ...: handler]: the handler sees the exception and
    the world as the body left it; a handler with no matching clause
    raises the exception again. *)
Definition try_except {W E A} (body : M W E A) (handler : E -> M W E A)
  : M W E A :=
  fun w =>
    match body w with
    | (Ret a, w') => (Ret a, w')
    | (Raise e, w') => handler e w'
    end.

(** What one iteration of a [for] body does to the loop: fall through to
    the next iteration, or [return] from the enclosing function. *)
Inductive flow (A : Type) : Type :=
| Next
| Return (a : A).
Arguments Next {A}.
Arguments Return {A} a.

(** [for x in xs: body]. *)
Fixpoint for_each {W E X A} (xs : list X) (body : X -> M W E (flow A))
  : M W E (flow A) :=
  match xs with
  | [] => ret Next
  | x :: xs' =>
      bind (body x) (fun f =>
        match f with
        | Next => for_each xs' body
        | Return a => ret (Return a)
        end)
  end.

(** [range(n)] for an [int] n: empty when [n <= 0]. *)
Definition range (n : Z) : list Z := map Z.of_nat (seq 0 (Z.to_nat n)).

End Py.

Declare Scope py_scope.
Delimit Scope py_scope with py.
Notation "x <- c ;; k" := (Py.bind c (fun x => k))
  (at level 100, c at next level, right associativity) : py_scope.

(** ** fetcher.py *)

Module Fetcher.
Import Py.

(** The exceptions that can travel through [fetch_html].  The first four
    are the classes of [requests.exceptions] that the handlers tell apart,
    in the order of the [except] clauses: [Timeout] stands for every
    instance of [requests.exceptions.Timeout], [ConnectionError] for every
    connection error that is not a timeout, [RequestException] for every
    other request exception.  [ValueError] is the builtin one. *)
Inductive exn : Type :=
| Timeout
| HTTPError (status_code : Z)
| ConnectionError
| RequestException
| ValueError.

Record Response : Type := { status_code : Z; text : string }.

(** What the transport does with one GET. *)
Inductive transport_outcome : Type :=
| Replies (r : Response)
| TimesOut
| ConnectionFails
| OtherFailure.

(** What the function does to the outside, in the order it does it. *)
Inductive event : Type :=
| Request
| Sleep (seconds : Q).

Record world : Type := { issued : nat; trace : list event }.

Definition initial : world := {| issued := 0; trace := [] |}.

Definition emit (e : event) (w : world) : world :=
  {| issued := match e with Request => S (issued w) | Sleep _ => issued w end;
     trace := trace w ++ [e] |}.


Section Network.

(** The behaviour of the network: the outcome of the [k]-th GET issued. *)
Variable net : nat -> transport_outcome.

(** [requests.get(url, headers=HEADERS, timeout=timeout, verify=True,
    allow_redirects=True)] for a timeout the transport accepts; see
    [Limits.requests_get] for the others. *)
Definition requests_get (url : string) (timeout : Z) : M world exn Response :=
  fun w =>
    let w' := emit Request w in
    match net (issued w) with
    | Replies r => (Ret r, w')
    | TimesOut => (Raise Timeout, w')
    | ConnectionFails => (Raise ConnectionError, w')
    | OtherFailure => (Raise RequestException, w')
    end.

(** [response.raise_for_status()]: an [HTTPError] for a 4xx or 5xx status. *)
Definition raise_for_status (r : Response) : M world exn unit :=
  if (400 <=? status_code r) && (status_code r <? 600)
  then raise (HTTPError (status_code r))
  else ret tt.

(** [time.sleep(secs)] on a timer without an upper bound: a negative
    argument is refused with [ValueError].  [Limits.time_sleep] is the
    bounded timer. *)
Definition time_sleep (secs : Q) : M world exn unit :=
  fun w =>
    if Qle_bool 0 secs then (Ret tt, emit (Sleep secs) w)
    else (Raise ValueError, w).

(** [sleep_time = backoff_factor * (2 ** attempt)], the expression the
    three retrying handlers of [fetch_html] compute, as a product of exact
    numbers.  [Limits.sleep_time] is the product of a [float] and an
    [int]. *)
Definition sleep_time (backoff_factor : Q) (attempt : Z) : Q :=
  (backoff_factor * inject_Z (2 ^ attempt))%Q.

(** The body of the [for attempt in range(retries)] loop of [fetch_html]. *)
Definition fetch_html_attempt (url : string) (retries timeout : Z)
    (backoff_factor : Q) (attempt : Z) : M world exn (flow (option string)) :=
  try_except
    (response <- requests_get url timeout ;;
     _ <- raise_for_status response ;;
     ret (Return (Some (text response))))%py
    (fun e =>
       match e with
       | Timeout =>
           if attempt <? retries - 1 then
             (_ <- time_sleep (sleep_time backoff_factor attempt) ;; ret Next)%py
           else ret (Return None)
       | HTTPError code =>
           if (400 <=? code) && (code <? 500) then ret (Return None)
           else if attempt <? retries - 1 then
             (_ <- time_sleep (sleep_time backoff_factor attempt) ;; ret Next)%py
           else ret (Return None)
       | ConnectionError =>
           if attempt <? retries - 1 then
             (_ <- time_sleep (sleep_time backoff_factor attempt) ;; ret Next)%py
           else ret (Return None)
       | RequestException => ret (Return None)
       | ValueError => raise ValueError
       end).

Definition fetch_html (url : string) (retries timeout : Z)
    (backoff_factor : Q) : M world exn (option string) :=
  (f <- for_each (range retries)
          (fetch_html_attempt url retries timeout backoff_factor) ;;
   match f with
   | Return r => ret r
   | Next => ret None
   end)%py.

(** [HEADERS], and a [requests.Session] as far as the function touches
    it: its header dict. *)
Definition HEADERS : gmap string string :=
  list_to_map
    [ ("User-Agent", "Mozilla/5.0 (compatible; DataScraper/1.0)");
      ("Accept", "text/html,application/xhtml+xml,application/xml;q=0.9,*/*;q=0.8");
      ("Accept-Language", "en-US,en;q=0.5");
      ("Accept-Encoding", "gzip, deflate");
      ("Connection", "keep-alive") ]%string.

(** Lower case for the letters of ASCII: [str.lower()] on a header name,
    which is made of ASCII characters. *)
Definition ascii_lower (c : ascii) : ascii :=
  let n := nat_of_ascii c in
  if Nat.leb 65 n && Nat.leb n 90 then ascii_of_nat (n + 32) else c.

Fixpoint lower (s : string) : string :=
  match s with
  | EmptyString => EmptyString
  | String c rest => String (ascii_lower c) (lower rest)
  end.

(** [session.headers] is a [CaseInsensitiveDict]: under the lower-cased
    name it keeps the name as it was last set, and the value. *)
Record Session : Type := { headers : gmap string (string * string) }.


(** [session.headers.update(HEADERS)]: every item of [HEADERS] is set, and
    replaces what the session had under a name that differs in case
    only. *)
Definition headers_update (s : Session) (h : gmap string string) : Session :=
  {| headers :=
       map_fold (fun k v store => <[lower k := (k, v)]> store) (headers s) h |}.

(** [session.get(url, timeout=timeout)]. *)
Definition session_get (s : Session) (url : string) (timeout : Z)
  : M world exn Response := requests_get url timeout.

(** The body of the loop of [fetch_html_with_session]. *)
Definition fetch_html_with_session_attempt (s : Session) (url : string)
    (retries timeout : Z) (attempt : Z) : M world exn (flow (option string)) :=
  try_except
    (response <- session_get s url timeout ;;
     _ <- raise_for_status response ;;
     ret (Return (Some (text response))))%py
    (fun e =>
       match e with
       | Timeout | HTTPError _ | ConnectionError | RequestException =>
           if attempt =? retries - 1 then ret (Return None)
           else (_ <- time_sleep ((3 # 10) * inject_Z (2 ^ attempt))%Q ;; ret Next)%py
       | ValueError => raise ValueError
       end).

(** The session is mutated in place, so the updated session is part of
    what the call leaves behind. *)
Definition fetch_html_with_session (s : Session) (url : string)
    (retries timeout : Z) : M world exn (option string * Session) :=
  let s' := headers_update s HEADERS in
  (f <- for_each (range retries)
          (fetch_html_with_session_attempt s' url retries timeout) ;;
   match f with
   | Return r => ret (r, s')
   | Next => ret (None, s')
   end)%py.

End Network.

(** *** The failure kinds of the specification

    The classification of one transport outcome, as the data model of the
    specification has it: a 4xx reply is a client error, a 5xx reply a
    server error; timeouts, connection failures and server errors are
    retryable, client errors and other transport errors are terminal. *)

Definition client_error (o : transport_outcome) : bool :=
  match o with
  | Replies r => (400 <=? status_code r) && (status_code r <? 500)
  | _ => false
  end.

Definition server_error (o : transport_outcome) : bool :=
  match o with
  | Replies r => (500 <=? status_code r) && (status_code r <? 600)
  | _ => false
  end.

Definition retryable (o : transport_outcome) : bool :=
  match o with
  | TimesOut | ConnectionFails => true
  | Replies _ => server_error o
  | OtherFailure => false
  end.

Definition terminal (o : transport_outcome) : bool :=
  match o with
  | OtherFailure => true
  | Replies _ => client_error o
  | TimesOut | ConnectionFails => false
  end.

(** The text of a reply that is neither a client nor a server error. *)
Definition fetched (o : transport_outcome) : option string :=
  match o with
  | Replies r => if client_error o || server_error o then None else Some (text r)
  | _ => None
  end.



(** *** Networks to run the functions against *)

Definition always (o : transport_outcome) : nat -> transport_outcome :=
  fun _ => o.

(** The outcomes of [l] in turn, then [o] for ever. *)
Definition scripted (l : list transport_outcome) (o : transport_outcome)
  : nat -> transport_outcome :=
  fun k => nth k l o.

Definition reply (code : Z) (body : string) : transport_outcome :=
  Replies {| status_code := code; text := body |}.

End Fetcher.

(** ** fetcher.py within the bounds of the platform

    The same two functions, with what Python and the transport refuse:
    - [requests.get] and [session.get] validate the timeout before any
      connection is made, and raise the builtin [ValueError] for a timeout
      that is not positive;
    - in [backoff_factor * (2 ** attempt)] the [int] is converted to
      [float], which raises [OverflowError] from [2 ** 1024] on;
    - [time.sleep] keeps the delay as a signed 64-bit count of nanoseconds
      and raises [OverflowError] for a delay outside that range (a product
      that overflowed to infinity included).
    None of the [except] clauses of the two functions catches a
    [ValueError] or an [OverflowError]. *)

Module Limits.
Import Py Fetcher.

Inductive exn : Type :=
| Timeout
| HTTPError (status_code : Z)
| ConnectionError
| RequestException
| ValueError
| OverflowError.

(** The range of the timer, in seconds. *)
Definition timer_max : Q := 9223372036854775807 # 1000000000.
Definition timer_min : Q := -9223372036854775808 # 1000000000.



Section Network.

Variable net : nat -> transport_outcome.

(** [requests.get(url, headers=HEADERS, timeout=timeout, verify=True,
    allow_redirects=True)].  The timeout is validated after the request
    is prepared and before the connection is opened: with a timeout that
    is not positive nothing is sent.  (A URL that [requests] cannot
    prepare is refused before the timeout is looked at, with a
    [RequestException]; with a timeout that is not positive that case is
    left out.) *)
Definition requests_get (url : string) (timeout : Z) : M world exn Response :=
  fun w =>
    if timeout <=? 0 then (Raise ValueError, w)
    else
      let w' := emit Request w in
      match net (issued w) with
      | Replies r => (Ret r, w')
      | TimesOut => (Raise Timeout, w')
      | ConnectionFails => (Raise ConnectionError, w')
      | OtherFailure => (Raise RequestException, w')
      end.

(** [response.raise_for_status()]. *)
Definition raise_for_status (r : Response) : M world exn unit :=
  if (400 <=? status_code r) && (status_code r <? 600)
  then raise (HTTPError (status_code r))
  else ret tt.

(** [time.sleep(secs)]. *)
Definition time_sleep (secs : Q) : M world exn unit :=
  fun w =>
    if Qle_bool timer_min secs && Qle_bool secs timer_max then
      if Qle_bool 0 secs then (Ret tt, emit (Sleep secs) w)
      else (Raise ValueError, w)
    else (Raise OverflowError, w).

(** [factor * (2 ** attempt)] for a [float] factor. *)
Definition sleep_time (backoff_factor : Q) (attempt : Z) : M world exn Q :=
  if 1024 <=? attempt then raise OverflowError
  else ret (backoff_factor * inject_Z (2 ^ attempt))%Q.

(** The body of the [for attempt in range(retries)] loop of [fetch_html]. *)
Definition fetch_html_attempt (url : string) (retries timeout : Z)
    (backoff_factor : Q) (attempt : Z) : M world exn (flow (option string)) :=
  try_except
    (response <- requests_get url timeout ;;
     _ <- raise_for_status response ;;
     ret (Return (Some (text response))))%py
    (fun e =>
       match e with
       | Timeout =>
           if attempt <? retries - 1 then
             (d <- sleep_time backoff_factor attempt ;;
              _ <- time_sleep d ;; ret Next)%py
           else ret (Return None)
       | HTTPError code =>
           if (400 <=? code) && (code <? 500) then ret (Return None)
           else if attempt <? retries - 1 then
             (d <- sleep_time backoff_factor attempt ;;
              _ <- time_sleep d ;; ret Next)%py
           else ret (Return None)
       | ConnectionError =>
           if attempt <? retries - 1 then
             (d <- sleep_time backoff_factor attempt ;;
              _ <- time_sleep d ;; ret Next)%py
           else ret (Return None)
       | RequestException => ret (Return None)
       | ValueError => raise ValueError
       | OverflowError => raise OverflowError
       end).

Definition fetch_html (url : string) (retries timeout : Z)
    (backoff_factor : Q) : M world exn (option string) :=
  (f <- for_each (range retries)
          (fetch_html_attempt url retries timeout backoff_factor) ;;
   match f with
   | Return r => ret r
   | Next => ret None
   end)%py.

(** [session.get(url, timeout=timeout)]. *)
Definition session_get (s : Session) (url : string) (timeout : Z)
  : M world exn Response := requests_get url timeout.

(** The body of the loop of [fetch_html_with_session]. *)
Definition fetch_html_with_session_attempt (s : Session) (url : string)
    (retries timeout : Z) (attempt : Z) : M world exn (flow (option string)) :=
  try_except
    (response <- session_get s url timeout ;;
     _ <- raise_for_status response ;;
     ret (Return (Some (text response))))%py
    (fun e =>
       match e with
       | Timeout | HTTPError _ | ConnectionError | RequestException =>
           if attempt =? retries - 1 then ret (Return None)
           else (d <- sleep_time (3 # 10) attempt ;;
                 _ <- time_sleep d ;; ret Next)%py
       | ValueError => raise ValueError
       | OverflowError => raise OverflowError
       end).

Definition fetch_html_with_session (s : Session) (url : string)
    (retries timeout : Z) : M world exn (option string * Session) :=
  let s' := headers_update s HEADERS in
  (f <- for_each (range retries)
          (fetch_html_with_session_attempt s' url retries timeout) ;;
   match f with
   | Return r => ret (r, s')
   | Next => ret (None, s')
   end)%py.

End Network.

End Limits.

(** ** validators.py *)

Module Validators.
Import Py.

(** Python values as far as scraped records hold them. *)
Inductive value : Type :=
| VNone
| VBool (b : bool)
| VInt (n : Z)
| VFloat (q : Q)
| VStr (s : string)
| VDatetime (t : Z)
| VList (l : list value)
| VDict (d : gmap string value).

(** A raw record, [Dict[str, Any]], and a model instance seen as the dict
    of its attributes. *)
Abbreviation record := (gmap string value).

(** Truth value of an object in a condition ([if v:], [all([...])]). *)
Definition truthy (v : value) : bool :=
  match v with
  | VNone => false
  | VBool b => b
  | VInt n => negb (n =? 0)
  | VFloat q => negb (Qeq_bool q 0)
  | VStr s => negb (String.eqb s "")
  | VDatetime _ => true
  | VList l => negb (Nat.eqb (List.length l) 0)
  | VDict d => negb (Nat.eqb (size d) 0)
  end.

(** One entry of [ValidationError.errors()]: where, and what was violated. *)
Inductive violation : Type :=
| Missing
| NoneNotAllowed
| WrongType
| TooLong (limit : nat)
| InvalidValue (msg : string)
| ExtraForbidden.

Record error : Type := { loc : string; what : violation }.

(** Exceptions.  [ValidationError] is pydantic's and carries its entries;
    [OtherException] stands for any exception class not named here. *)
Inductive exn : Type :=
| ValidationError (errors : list error)
| ValueError (msg : string)
| TypeError
| AssertionError
| AttributeError
| ImportError (msg : string)
| OtherException (class_name : string).

(** The declared types of the fields of [ScrapedDataModel]. *)
Inductive ftype : Type :=
| THttpUrl
| TStr
| TDatetime
| TDictStrAny.

(** [urllib.parse.urlparse] returns a [ParseResult]; the validator reads
    two of its components. *)
Record ParseResult : Type := { scheme : string; netloc : string }.

(** The library code the module calls, taken as given:
    - [urlparse]: [urllib.parse.urlparse], which can raise [ValueError];
    - [str_strip]: [str.strip()];
    - [str_len]: [len] of a [str], the number of its characters;
    - [datetime_now]: what [datetime.now()] returns during the call;
    - [coerce]: pydantic's validation of a raw value against a declared
      type: [None] when the value is not of that type, and otherwise the
      value the type makes of it (a URL type strips the blanks around the
      text). *)
Record Lib : Type := {
  urlparse : string -> result exn ParseResult;
  str_strip : string -> string;
  str_len : string -> nat;
  datetime_now : Z;
  coerce : ftype -> value -> option value
}.

(** A field declaration: [name: type = Field(default, max_length=...)]
    with the [@validator(name)] functions of the class. *)
Record field : Type := {
  name : string;
  type : ftype;
  allow_none : bool;                (* declared [Optional[...]] *)
  default : option value;           (* [None]: required, [Field(...)] *)
  max_length : option nat;
  validators : list (value -> result exn value)
}.

(** [class Config: extra = ...]. *)
Inductive Extra : Type := Allow | Ignore | Forbid.

Record schema : Type := { fields : list field; extra : Extra }.

Definition field_names (S : schema) : list string := map name (fields S).

(** *** How pydantic builds an instance from keyword arguments *)

Section Pydantic.

Variable lib : Lib.

(** The [@validator] functions run in order on the coerced value.  A
    [ValueError], [TypeError] or [AssertionError] raised by one of them is
    a validation error of the field; any other exception is not caught. *)
Fixpoint run_validators (vs : list (value -> result exn value)) (v : value)
  : result exn (value + violation) :=
  match vs with
  | [] => Ret (inl v)
  | f :: vs' =>
      match f v with
      | Ret v' => run_validators vs' v'
      | Raise (ValueError msg) => Ret (inr (InvalidValue msg))
      | Raise TypeError => Ret (inr (InvalidValue "type error"))
      | Raise AssertionError => Ret (inr (InvalidValue "assertion failed"))
      | Raise e => Raise e
      end
  end.

(** [max_length=n]: a string of more than [n] characters is refused. *)
Definition check_max_length (f : field) (v : value) : option violation :=
  match max_length f, v with
  | Some n, VStr s => if Nat.leb (str_len lib s) n then None else Some (TooLong n)
  | _, _ => None
  end.

(** One supplied value against one field: [None] is accepted as it is by
    an optional field and refused by the others; any other value is
    coerced to the declared type, checked against the length bound and
    then handed to the validators of the class. *)
Definition validate_field (f : field) (v : value)
  : result exn (value + violation) :=
  match v with
  | VNone => if allow_none f then Ret (inl VNone) else Ret (inr NoneNotAllowed)
  | _ =>
      match coerce lib (type f) v with
      | None => Ret (inr WrongType)
      | Some v1 =>
          match check_max_length f v1 with
          | Some viol => Ret (inr viol)
          | None => run_validators (validators f) v1
          end
      end
  end.

(** The fields in declaration order; every violation is collected, not
    only the first. *)
Fixpoint validate_fields (fs : list field) (data values : record)
    (errors : list error) : result exn (record * list error) :=
  match fs with
  | [] => Ret (values, errors)
  | f :: fs' =>
      match data !! name f with
      | None =>
          match default f with
          | None =>
              validate_fields fs' data values
                (errors ++ [{| loc := name f; what := Missing |}])
          | Some d => validate_fields fs' data (<[name f := d]> values) errors
          end
      | Some v =>
          match validate_field f v with
          | Raise e => Raise e
          | Ret (inl v') =>
              validate_fields fs' data (<[name f := v']> values) errors
          | Ret (inr viol) =>
              validate_fields fs' data values
                (errors ++ [{| loc := name f; what := viol |}])
          end
      end
  end.

(** The keys of the input that no field declares. *)
Definition extras (S : schema) (data : record) : record :=
  filter (fun kv => kv.1 ∉ field_names S) data.


Definition sorted_keys (m : record) : list string :=
  merge_sort (fun a b => Is_true (String.leb a b)) (map fst (map_to_list m)).

(** Calling the model class with the items of [data] as keyword arguments. *)
Definition construct (S : schema) (data : record) : result exn record :=
  match validate_fields (fields S) data ∅ [] with
  | Raise e => Raise e
  | Ret (values, errors) =>
      let '(values', errors') :=
        match extra S with
        | Allow => (extras S data ∪ values, errors)
        | Ignore => (values, errors)
        | Forbid =>
            (values,
             errors ++ map (fun k => {| loc := k; what := ExtraForbidden |})
                         (sorted_keys (extras S data)))
        end in
      match errors' with
      | [] => Ret values'
      | _ :: _ => Raise (ValidationError errors')
      end
  end.

(** *** class ScrapedDataModel *)

Definition validate_url (v : value) : result exn value :=
  match v with
  | VStr s =>
      match urlparse lib s with
      | Raise e => Raise e
      | Ret parsed =>
          if negb (truthy (VStr (scheme parsed)) && truthy (VStr (netloc parsed)))
          then Raise (ValueError "Invalid URL format")
          else Ret v
      end
  | _ => Ret v
  end.

Definition validate_title (v : value) : result exn value :=
  if truthy v then
    match v with
    | VStr s =>
        let v := VStr (str_strip lib s) in
        if negb (truthy v) then Ret VNone else Ret v
    | _ => Raise AttributeError
    end
  else Ret v.

Definition ScrapedDataModel : schema :=
  {| fields :=
       [ {| name := "url"; type := THttpUrl; allow_none := false;
            default := None; max_length := None;
            validators := [validate_url] |};
         {| name := "title"; type := TStr; allow_none := true;
            default := Some VNone; max_length := Some 500%nat;
            validators := [validate_title] |};
         {| name := "content"; type := TStr; allow_none := true;
            default := Some VNone; max_length := None; validators := [] |};
         {| name := "timestamp"; type := TDatetime; allow_none := false;
            default := Some (VDatetime (datetime_now lib));
            max_length := None; validators := [] |};
         {| name := "metadata"; type := TDictStrAny; allow_none := false;
            default := Some (VDict ∅); max_length := None;
            validators := [] |} ];
     extra := Allow |}.

End Pydantic.

(** *** class DataValidator *)

(** One entry of [validation_errors]: [{"data": data, "errors": e.errors()}]. *)
Record failure : Type := { data : record; errors : list error }.

Record DataValidator : Type := {
  model_class : record -> result exn record;
  validation_errors : list failure;
  valid_count : Z;
  invalid_count : Z
}.

(** [__init__]. *)
Definition init (PYDANTIC_AVAILABLE : bool)
    (model_class : record -> result exn record) : result exn DataValidator :=
  if negb PYDANTIC_AVAILABLE
  then Raise (ImportError "pydantic required for data validation")
  else Ret {| model_class := model_class; validation_errors := [];
              valid_count := 0; invalid_count := 0 |}.

Definition validate (self : DataValidator) (data : record)
  : option record * DataValidator :=
  match model_class self data with
  | Ret validated =>
      (Some validated,
       {| model_class := model_class self;
          validation_errors := validation_errors self;
          valid_count := valid_count self + 1;
          invalid_count := invalid_count self |})
  | Raise (ValidationError errs) =>
      (None,
       {| model_class := model_class self;
          validation_errors :=
            validation_errors self ++ [{| data := data; errors := errs |}];
          valid_count := valid_count self;
          invalid_count := invalid_count self + 1 |})
  | Raise _ =>
      (None,
       {| model_class := model_class self;
          validation_errors := validation_errors self;
          valid_count := valid_count self;
          invalid_count := invalid_count self + 1 |})
  end.

(** The loop of [validate_batch], with [validated_items] as accumulator.
    A model instance is always true in [if validated:], so the test tells
    an instance from [None]. *)
Fixpoint validate_batch_loop (self : DataValidator) (data_list : list record)
    (validated_items : list record) : list record * DataValidator :=
  match data_list with
  | [] => (validated_items, self)
  | data :: rest =>
      match validate self data with
      | (Some validated, self') =>
          validate_batch_loop self' rest (validated_items ++ [validated])
      | (None, self') => validate_batch_loop self' rest validated_items
      end
  end.

Definition validate_batch (self : DataValidator) (data_list : list record)
  : list record * DataValidator :=
  validate_batch_loop self data_list [].

Record report : Type := {
  report_valid_count : Z;
  report_invalid_count : Z;
  success_rate : Q;
  report_errors : list failure
}.

Definition get_validation_report (self : DataValidator) : report :=
  {| report_valid_count := valid_count self;
     report_invalid_count := invalid_count self;
     success_rate :=
       if valid_count self + invalid_count self >? 0
       then (inject_Z (valid_count self)
             / inject_Z (valid_count self + invalid_count self))%Q
       else 0%Q;
     report_errors := validation_errors self |}.

Definition reset_stats (self : DataValidator) : DataValidator :=
  {| model_class := model_class self;
     validation_errors := [];
     valid_count := 0;
     invalid_count := 0 |}.

(** [validate_scraped_data]. *)
Definition validate_scraped_data (PYDANTIC_AVAILABLE : bool)
    (data : list record) (model_class : record -> result exn record)
  : result exn (list record * report) :=
  match init PYDANTIC_AVAILABLE model_class with
  | Raise e => Raise e
  | Ret validator =>
      let '(validated, validator') := validate_batch validator data in
      Ret (validated, get_validation_report validator')
  end.

(** *** Histories of calls on one validator *)

Inductive call : Type :=
| CallValidate (data : record)
| CallValidateBatch (data_list : list record)
| CallReport
| CallReset.

Definition step (self : DataValidator) (c : call) : DataValidator :=
  match c with
  | CallValidate data => snd (validate self data)
  | CallValidateBatch data_list => snd (validate_batch self data_list)
  | CallReport => self
  | CallReset => reset_stats self
  end.

Definition run (self : DataValidator) (calls : list call) : DataValidator :=
  fold_left step calls self.

(** The number of records handed to [validate] or [validate_batch] since
    the last [reset_stats] of a history (or since its beginning). *)
Definition count (n : Z) (c : call) : Z :=
  match c with
  | CallValidate _ => n + 1
  | CallValidateBatch data_list => n + Z.of_nat (List.length data_list)
  | CallReport => n
  | CallReset => 0
  end.

Definition submitted (calls : list call) : Z := fold_left count calls 0.

(** *** Inputs to run the model on

    A stand-in for the libraries, simple enough to read: the URL type is
    plain text, [urlparse] splits off a scheme before the first colon and
    a network location after a double slash, [strip] removes blanks, and
    the examples are ASCII, where characters are bytes.  It serves the
    examples; no theorem depends on it. *)

Definition is_scheme_char (c : ascii) : bool :=
  let n := nat_of_ascii c in
  (Nat.leb 97 n && Nat.leb n 122) || (Nat.leb 65 n && Nat.leb n 90)
  || (Nat.leb 48 n && Nat.leb n 57)
  || Ascii.eqb c "+" || Ascii.eqb c "-" || Ascii.eqb c ".".

Fixpoint split_scheme (s acc : string) : option (string * string) :=
  match s with
  | EmptyString => None
  | String c rest =>
      if Ascii.eqb c ":" then
        if String.eqb acc "" then None else Some (acc, rest)
      else if is_scheme_char c then split_scheme rest (acc ++ String c "")
      else None
  end.

Fixpoint take_netloc (s : string) : string :=
  match s with
  | EmptyString => EmptyString
  | String c rest =>
      if Ascii.eqb c "/" || Ascii.eqb c "?" || Ascii.eqb c "#" then EmptyString
      else String c (take_netloc rest)
  end.

Definition plain_urlparse (s : string) : result exn ParseResult :=
  let '(sch, rest) :=
    match split_scheme s "" with
    | Some (sch, rest) => (sch, rest)
    | None => (EmptyString, s)
    end in
  Ret {| scheme := sch;
         netloc := match rest with
                   | String "/" (String "/" r) => take_netloc r
                   | _ => EmptyString
                   end |}.

Fixpoint lstrip (s : string) : string :=
  match s with
  | String " " rest => lstrip rest
  | _ => s
  end.

Fixpoint rstrip (s : string) : string :=
  match s with
  | EmptyString => EmptyString
  | String c rest =>
      let rest' := rstrip rest in
      if Ascii.eqb c " " && String.eqb rest' "" then EmptyString
      else String c rest'
  end.

Definition plain_coerce (t : ftype) (v : value) : option value :=
  match t, v with
  | THttpUrl, VStr _ | TStr, VStr _ | TDatetime, VDatetime _
  | TDictStrAny, VDict _ => Some v
  | _, _ => None
  end.

Definition plain_lib : Lib :=
  {| urlparse := plain_urlparse;
     str_strip := fun s => rstrip (lstrip s);
     str_len := String.length;
     datetime_now := 0;
     coerce := plain_coerce |}.

(** A second stand-in, with a URL type that does what pydantic's [HttpUrl]
    does to the text it is given: it strips the blanks around it, the
    no-break space U+00A0 among them (the bytes C2 A0 of its UTF-8 form),
    and then wants an http or https scheme and a host.  [urlparse] strips
    no such character. *)
Definition nbsp : string :=
  String (ascii_of_nat 194) (String (ascii_of_nat 160) EmptyString).

Fixpoint unicode_lstrip (s : string) : string :=
  match s with
  | String c rest =>
      if Ascii.eqb c " " then unicode_lstrip rest
      else
        match rest with
        | String c' rest' =>
            if Ascii.eqb c (ascii_of_nat 194) && Ascii.eqb c' (ascii_of_nat 160)
            then unicode_lstrip rest'
            else s
        | EmptyString => s
        end
  | EmptyString => s
  end.

Definition http_coerce (t : ftype) (v : value) : option value :=
  match t, v with
  | THttpUrl, VStr s =>
      let s' := rstrip (unicode_lstrip s) in
      match plain_urlparse s' with
      | Ret parsed =>
          if (String.eqb (scheme parsed) "http"
              || String.eqb (scheme parsed) "https")
             && negb (String.eqb (netloc parsed) "")
          then Some (VStr s')
          else None
      | Raise _ => None
      end
  | _, _ => plain_coerce t v
  end.

Definition stripping_lib : Lib :=
  {| urlparse := plain_urlparse;
     str_strip := fun s => rstrip (unicode_lstrip s);
     str_len := String.length;
     datetime_now := 0;
     coerce := http_coerce |}.

(** A subclass of [ScrapedDataModel] with one more validator,
    [@validator('content') def initial(cls, v): return v[0]], which raises
    [IndexError] on the empty string. *)
Definition initial_of (v : value) : result exn value :=
  match v with
  | VStr EmptyString => Raise (OtherException "IndexError")
  | VStr (String c _) => Ret (VStr (String c EmptyString))
  | _ => Raise TypeError
  end.

Definition InitialModel (lib : Lib) : schema :=
  {| fields :=
       map (fun f =>
              if String.eqb (name f) "content"
              then {| name := name f; type := type f; allow_none := allow_none f;
                      default := default f; max_length := max_length f;
                      validators := validators f ++ [initial_of] |}
              else f)
           (fields (ScrapedDataModel lib));
     extra := extra (ScrapedDataModel lib) |}.

(** A validator as [__init__] leaves it. *)
Definition fresh (model_class : record -> result exn record) : DataValidator :=
  {| model_class := model_class; validation_errors := [];
     valid_count := 0; invalid_count := 0 |}.

Definition product_page : record :=
  {[ "url" := VStr "https://a.test/p"; "title" := VStr " Widget ";
     "price" := VFloat (999 # 100); "sku" := VStr "W-1" ]}.

Definition bare_page : record :=
  {[ "url" := VStr "a.test/p"; "title" := VStr "Widget" ]}.

Definition blank_page : record :=
  {[ "url" := VStr "https://a.test/p"; "content" := VStr "" ]}.

(** A record whose url starts with a no-break space. *)
Definition padded_page : record :=
  {[ "url" := VStr (nbsp ++ "https://a.test/p") ]}.

End Validators.

(** ** validators.py, class ProductModel: the currency validator *)

Module Product.
Import Py Validators.

Section Currency.

(** [str.upper()] and [len], the number of characters, taken as given. *)
Variable str_upper : string -> string.
Variable str_len : string -> nat.

(** [ProductModel.validate_currency]. *)
Definition validate_currency (v : value) : result exn value :=
  if truthy v then
    match v with
    | VStr s =>
        let v := str_upper s in
        if negb (Nat.eqb (str_len v) 3)
        then Raise (ValueError "Currency code must be 3 characters")
        else Ret (VStr v)
    | _ => Raise AttributeError
    end
  else Ret v.

End Currency.

(** Upper case for the letters of ASCII, to run the validator on
    examples. *)
Definition ascii_upper (c : ascii) : ascii :=
  let n := nat_of_ascii c in
  if Nat.leb 97 n && Nat.leb n 122 then ascii_of_nat (n - 32) else c.

Fixpoint plain_upper (s : string) : string :=
  match s with
  | EmptyString => EmptyString
  | String c rest => String (ascii_upper c) (plain_upper rest)
  end.

End Product.

(** ** What a run leaves to observe *)

Module Observations.
Import Py Fetcher Validators.


(** The instances a model class builds from the records of a list, in the
    order of the list. *)
Definition accepted (model_class : record -> result exn record)
    (data_list : list record) : list record :=
  omap (fun d => match model_class d with
                 | Ret m => Some m
                 | Raise _ => None
                 end) data_list.

(** The failure entries for the records of a list that a model class
    refuses with a [ValidationError], in the order of the list. *)
Definition reported (model_class : record -> result exn record)
    (data_list : list record) : list failure :=
  omap (fun d => match model_class d with
                 | Raise (ValidationError errs) =>
                     Some {| data := d; errors := errs |}
                 | _ => None
                 end) data_list.

(** The records of a list that a model class refuses, for whatever
    reason. *)
Definition refused (model_class : record -> result exn record)
    (data_list : list record) : list record :=
  List.filter (fun d => match model_class d with
                        | Ret _ => false
                        | Raise _ => true
                        end) data_list.

(** The records handed over by one call. *)
Definition records_of (c : call) : list record :=
  match c with
  | CallValidate d => [d]
  | CallValidateBatch data_list => data_list
  | CallReport | CallReset => []
  end.

(** The records handed over since the last [reset_stats] of a history,
    or since its beginning, in the order they were handed over. *)
Definition since_reset (calls : list call) : list record :=
  fold_left (fun acc c =>
               match c with
               | CallReset => []
               | _ => acc ++ records_of c
               end) calls [].

(** The validator that has seen the records of a list and nothing else. *)
Definition tally (model_class : record -> result exn record)
    (data_list : list record) : DataValidator :=
  {| Validators.model_class := model_class;
     validation_errors := reported model_class data_list;
     valid_count := Z.of_nat (List.length (accepted model_class data_list));
     invalid_count := Z.of_nat (List.length (refused model_class data_list)) |}.

End Observations.

(** * Properties

    ** The retry protocol of the fetcher *)

Module FetcherProps.
Import Py Fetcher.



Lemma client_error_terminal o : client_error o = true -> terminal o = true.
Proof. destruct o; simpl; congruence. Qed.

Lemma terminal_spec o :
  terminal o = true -> fetched o = None /\ retryable o = false.
Proof.
  destruct o as [r| | |]; simpl; try discriminate; [|tauto].
  intros H. rewrite H. simpl. split; [reflexivity|].
  apply andb_true_iff in H as [_ H%Z.ltb_lt].
  destruct (500 <=? status_code r) eqn:E; [|reflexivity].
  apply Z.leb_le in E. lia.
Qed.



Section Run.

Variable net : nat -> transport_outcome.
Variables (url : string) (retries timeout : Z) (backoff_factor : Q).

Local Abbreviation body := (fetch_html_attempt net url retries timeout backoff_factor).

(** What one attempt does, by the failure kind of its outcome. *)
Lemma fetch_html_attempt_spec attempt w :
  body attempt w =
  let o := net (issued w) in
  let w1 := emit Request w in
  match fetched o with
  | Some t => (Ret (Return (Some t)), w1)
  | None =>
      if retryable o && (attempt <? retries - 1) then
        if Qle_bool 0 (sleep_time backoff_factor attempt)
        then (Ret Next, emit (Sleep (sleep_time backoff_factor attempt)) w1)
        else (Raise ValueError, w1)
      else (Ret (Return None), w1)
  end.
Proof.
  unfold fetch_html_attempt, try_except, bind, requests_get, raise_for_status,
    time_sleep, ret, raise, fetched, retryable, client_error, server_error.
  cbv zeta.
  destruct (net (issued w)) as [r| | |]; simpl;
    repeat match goal with
      | |- context [?x <=? ?y] => destruct (Z.leb_spec x y); simpl
      | |- context [?x <? ?y] => destruct (Z.ltb_spec x y); simpl
      end;
    try destruct (Qle_bool 0 (sleep_time backoff_factor attempt));
    solve [reflexivity | lia].
Qed.

Local Abbreviation loop a k := (for_each (map Z.of_nat (seq a k)) body).

Lemma loop_step a k w :
  loop a (S k) w =
  let o := net (issued w) in
  let w1 := emit Request w in
  match fetched o with
  | Some t => (Ret (Return (Some t)), w1)
  | None =>
      if retryable o && (Z.of_nat a <? retries - 1) then
        if Qle_bool 0 (sleep_time backoff_factor (Z.of_nat a))
        then loop (S a) k (emit (Sleep (sleep_time backoff_factor (Z.of_nat a))) w1)
        else (Raise ValueError, w1)
      else (Ret (Return None), w1)
  end.
Proof.
  cbn [seq map for_each]. unfold bind at 1. rewrite fetch_html_attempt_spec.
  cbv zeta.
  destruct (fetched (net (issued w))); [reflexivity|].
  destruct (retryable (net (issued w)) && (Z.of_nat a <? retries - 1)); [|reflexivity].
  destruct (Qle_bool 0 (sleep_time backoff_factor (Z.of_nat a))); reflexivity.
Qed.

Lemma fetch_html_unfold w :
  fetch_html net url retries timeout backoff_factor w =
  match loop 0 (Z.to_nat retries) w with
  | (Ret (Return r), w') => (Ret r, w')
  | (Ret Next, w') => (Ret None, w')
  | (Raise e, w') => (Raise e, w')
  end.
Proof.
  unfold fetch_html, bind, range.
  destruct (loop 0 (Z.to_nat retries) w) as [[[|r]|e] w']; reflexivity.
Qed.

(** A client error ends the run at once. *)
Lemma loop_client_error k : forall a w i,
  (issued w <= i < issued (snd (loop a k w)))%nat ->
  client_error (net i) = true ->
  fst (loop a k w) = Ret (Return None) /\
  issued (snd (loop a k w)) = S i /\
  exists t, trace (snd (loop a k w)) = t ++ [Request].
Proof.
  induction k as [|k IH]; intros a w i Hi Hc; [simpl in Hi; lia|].
  revert Hi. rewrite loop_step. cbv zeta.
  destruct (fetched (net (issued w))) as [t|] eqn:Hf.
  { simpl. intros Hi. assert (i = issued w) as -> by lia.
    apply client_error_terminal, terminal_spec in Hc. destruct Hc; congruence. }
  destruct (retryable (net (issued w))) eqn:Hr; simpl.
  - assert (i <> issued w) as Hne.
    { intros ->. apply client_error_terminal, terminal_spec in Hc.
      destruct Hc; congruence. }
    destruct (Z.of_nat a <? retries - 1).
    + destruct (Qle_bool 0 (sleep_time backoff_factor (Z.of_nat a))).
      * intros Hi. apply IH; [simpl; lia|exact Hc].
      * simpl. lia.
    + simpl. lia.
  - intros Hi. assert (i = issued w) as -> by lia.
    split; [reflexivity|]. split; [reflexivity|]. eexists. reflexivity.
Qed.

(** *** The loop of [fetch_html_with_session] *)

Variable s : Session.

Local Abbreviation sbody :=
  (fetch_html_with_session_attempt net s url retries timeout).
Local Abbreviation sloop a k := (for_each (map Z.of_nat (seq a k)) sbody).





End Run.

(** C2. When an attempt of [fetch_html] receives a reply with a status in
    400..499, the call returns [None] right after that attempt: the
    request that got the reply is the last one issued and the last event
    of the trace, so no sleep and no further request follows it. *)
Theorem fetch_html_client_error_aborts
    net url retries timeout backoff_factor w (i : nat) :
  (issued w <= i
   < issued (snd (fetch_html net url retries timeout backoff_factor w)))%nat ->
  client_error (net i) = true ->
  fst (fetch_html net url retries timeout backoff_factor w) = Ret None /\
  issued (snd (fetch_html net url retries timeout backoff_factor w)) = S i /\
  exists t,
    trace (snd (fetch_html net url retries timeout backoff_factor w))
    = t ++ [Request].
Proof.
  rewrite fetch_html_unfold. intros Hi Hc.
  destruct (loop_client_error net url retries timeout backoff_factor
              (Z.to_nat retries) 0%nat w i) as (Hr & Hn & Ht).
  - destruct (for_each _ _ w) as [[[|r]|e] w']; exact Hi.
  - exact Hc.
  - destruct (for_each _ _ w) as [[[|r]|e] w']; simpl in *;
      try discriminate.
    injection Hr as ->. auto.
Qed.

Lemma fetch_html_client_error_aborts_witness :
  fst (fetch_html (scripted [TimesOut; reply 404 "gone"] (reply 200 "late"))
         "https://example.test/missing" 3 10 (3 # 10) initial) = Ret None /\
  issued (snd (fetch_html (scripted [TimesOut; reply 404 "gone"] (reply 200 "late"))
                 "https://example.test/missing" 3 10 (3 # 10) initial)) = 2%nat /\
  exists t,
    trace (snd (fetch_html (scripted [TimesOut; reply 404 "gone"] (reply 200 "late"))
                 "https://example.test/missing" 3 10 (3 # 10) initial))
    = t ++ [Request].
Proof.
  apply (fetch_html_client_error_aborts
           (scripted [TimesOut; reply 404 "gone"] (reply 200 "late"))
           "https://example.test/missing" 3 10 (3 # 10) initial 1%nat).
  - vm_compute. lia.
  - reflexivity.
Defined.







End FetcherProps.

(** ** The retry protocol within the bounds of the platform *)

Module LimitsProps.
Import Py Fetcher.



Section Run.

Variable net : nat -> transport_outcome.
Variables (url : string) (retries timeout : Z) (backoff_factor : Q).

Local Abbreviation body :=
  (Limits.fetch_html_attempt net url retries timeout backoff_factor).


Local Abbreviation loop a k := (for_each (map Z.of_nat (seq a k)) body).















(** *** The loop of [fetch_html_with_session] *)

Variable s : Session.

Local Abbreviation sbody :=
  (Limits.fetch_html_with_session_attempt net s url retries timeout).
Local Abbreviation sloop a k := (for_each (map Z.of_nat (seq a k)) sbody).





End Run.









End LimitsProps.

(** ** The statistics of the validator *)

Module ValidatorProps.
Import Py Validators.

(** *** One call of [validate] *)

Lemma validate_accepts self data m :
  model_class self data = Ret m ->
  validate self data =
  (Some m,
   {| model_class := model_class self;
      validation_errors := validation_errors self;
      valid_count := valid_count self + 1;
      invalid_count := invalid_count self |}).
Proof. intros H. unfold validate. rewrite H. reflexivity. Qed.

Lemma validate_rejects self data e :
  model_class self data = Raise e ->
  fst (validate self data) = None /\
  model_class (snd (validate self data)) = model_class self /\
  valid_count (snd (validate self data)) = valid_count self /\
  invalid_count (snd (validate self data)) = invalid_count self + 1.
Proof. intros H. unfold validate. rewrite H. destruct e; simpl; auto. Qed.

(** Exactly one of the two counters moves, by one. *)
Lemma validate_classifies self data :
  (exists m, fst (validate self data) = Some m /\
     valid_count (snd (validate self data)) = valid_count self + 1 /\
     invalid_count (snd (validate self data)) = invalid_count self) \/
  (fst (validate self data) = None /\
     valid_count (snd (validate self data)) = valid_count self /\
     invalid_count (snd (validate self data)) = invalid_count self + 1).
Proof.
  destruct (model_class self data) as [m|e] eqn:H.
  - left. exists m. rewrite (validate_accepts _ _ _ H). auto.
  - right. destruct (validate_rejects _ _ _ H) as (? & _ & ? & ?). auto.
Qed.

Lemma validate_model_class self data :
  model_class (snd (validate self data)) = model_class self.
Proof.
  unfold validate. destruct (model_class self data) as [m|[]]; reflexivity.
Qed.

Lemma validate_batch_loop_counts data_list : forall self acc,
  valid_count (snd (validate_batch_loop self data_list acc))
  + invalid_count (snd (validate_batch_loop self data_list acc))
  = valid_count self + invalid_count self + Z.of_nat (List.length data_list).
Proof.
  induction data_list as [|d rest IH]; intros self acc; [simpl; lia|].
  cbn [validate_batch_loop List.length].
  destruct (validate_classifies self d) as [(m & Hf & Hv & Hi) | (Hf & Hv & Hi)];
    destruct (validate self d) as [[m'|] self']; simpl in *; try discriminate;
    rewrite IH; lia.
Qed.

Lemma validate_batch_loop_model_class data_list : forall self acc,
  model_class (snd (validate_batch_loop self data_list acc)) = model_class self.
Proof.
  induction data_list as [|d rest IH]; intros self acc; [reflexivity|].
  cbn [validate_batch_loop].
  pose proof (validate_model_class self d) as H.
  destruct (validate self d) as [[m'|] self']; simpl in *; rewrite IH; exact H.
Qed.

Lemma step_model_class self c : model_class (step self c) = model_class self.
Proof.
  destruct c; simpl; auto using validate_model_class.
  apply validate_batch_loop_model_class.
Qed.

Lemma run_model_class calls : forall self,
  model_class (run self calls) = model_class self.
Proof.
  unfold run. induction calls as [|c calls IH]; intros self; [reflexivity|].
  simpl. rewrite IH. apply step_model_class.
Qed.

Lemma run_counts calls : forall self n,
  valid_count self + invalid_count self = n ->
  valid_count (run self calls) + invalid_count (run self calls)
  = fold_left count calls n.
Proof.
  unfold run. induction calls as [|c calls IH]; intros self n Hn; [exact Hn|].
  simpl. apply IH. destruct c as [d|l| |]; simpl.
  - destruct (validate_classifies self d) as [(m & _ & Hv & Hi) | (_ & Hv & Hi)]; lia.
  - unfold validate_batch. rewrite validate_batch_loop_counts. lia.
  - exact Hn.
  - reflexivity.
Qed.

(** C3. From the construction of a validator on, [valid_count +
    invalid_count] is the number of records handed to [validate] and
    [validate_batch] since the last [reset_stats] (since the construction
    when there was none), and each call of [validate] moves exactly one of
    the two counters by one. *)
Theorem counts_account_for_every_record
    available model_class0 self (calls : list call) :
  init available model_class0 = Ret self ->
  valid_count (run self calls) + invalid_count (run self calls)
  = submitted calls /\
  forall d,
    (exists m, fst (validate (run self calls) d) = Some m /\
       valid_count (snd (validate (run self calls) d))
       = valid_count (run self calls) + 1 /\
       invalid_count (snd (validate (run self calls) d))
       = invalid_count (run self calls)) \/
    (fst (validate (run self calls) d) = None /\
       valid_count (snd (validate (run self calls) d))
       = valid_count (run self calls) /\
       invalid_count (snd (validate (run self calls) d))
       = invalid_count (run self calls) + 1).
Proof.
  unfold init. destruct available; simpl; [|discriminate].
  intros [= <-]. split.
  - apply run_counts. reflexivity.
  - intros d. apply validate_classifies.
Qed.

Lemma counts_account_for_every_record_witness :
  valid_count
    (run (fresh (construct plain_lib (ScrapedDataModel plain_lib)))
       [CallValidate bare_page; CallReset;
        CallValidateBatch [product_page; bare_page]; CallReport;
        CallValidate product_page])
  + invalid_count
      (run (fresh (construct plain_lib (ScrapedDataModel plain_lib)))
         [CallValidate bare_page; CallReset;
          CallValidateBatch [product_page; bare_page]; CallReport;
          CallValidate product_page])
  = 3.
Proof.
  apply (counts_account_for_every_record true
           (construct plain_lib (ScrapedDataModel plain_lib))).
  reflexivity.
Defined.

(** C9. Whatever calls came before, [reset_stats] leaves both counters at
    zero and the failure list empty and keeps the model class, and the
    report taken next has a success rate of zero. *)
Theorem reset_stats_clears self (calls : list call) :
  valid_count (reset_stats (run self calls)) = 0 /\
  invalid_count (reset_stats (run self calls)) = 0 /\
  validation_errors (reset_stats (run self calls)) = [] /\
  model_class (reset_stats (run self calls)) = model_class (run self calls) /\
  model_class (reset_stats (run self calls)) = model_class self /\
  success_rate (get_validation_report (reset_stats (run self calls))) = 0%Q /\
  get_validation_report (reset_stats (run self calls))
  = {| report_valid_count := 0; report_invalid_count := 0;
       success_rate := 0%Q; report_errors := [] |}.
Proof.
  repeat split. simpl. apply run_model_class.
Qed.

(** C1. What [validate] does with a rejected record.  On a
    [ValidationError] the invalid counter moves by one and an entry with
    the raw record and all the violations is appended.  On any other
    exception the counter moves by one and the failure list stays as it
    was: for [InitialModel] and a page with an empty content the record is
    counted as invalid and the report lists no failure for it. *)
Theorem validate_unexpected_error_not_reported :
  (forall self d errs,
     model_class self d = Raise (ValidationError errs) ->
     fst (validate self d) = None /\
     invalid_count (snd (validate self d)) = invalid_count self + 1 /\
     valid_count (snd (validate self d)) = valid_count self /\
     validation_errors (snd (validate self d))
     = validation_errors self ++ [{| data := d; errors := errs |}]) /\
  model_class (fresh (construct plain_lib (InitialModel plain_lib))) blank_page
  = Raise (OtherException "IndexError") /\
  fst (validate (fresh (construct plain_lib (InitialModel plain_lib))) blank_page)
  = None /\
  invalid_count
    (snd (validate (fresh (construct plain_lib (InitialModel plain_lib)))
            blank_page)) = 1 /\
  validation_errors
    (snd (validate (fresh (construct plain_lib (InitialModel plain_lib)))
            blank_page)) = [] /\
  report_errors
    (get_validation_report
       (snd (validate (fresh (construct plain_lib (InitialModel plain_lib)))
               blank_page))) = [].
Proof.
  split.
  - intros self d errs H. unfold validate. rewrite H. simpl. auto.
  - vm_compute. repeat split.
Qed.

Section Model.

Variable lib : Lib.

Lemma validate_fields_errors fs : forall (d values values' : record) errs errs',
  validate_fields lib fs d values errs = Ret (values', errs') ->
  exists more, errs' = errs ++ more.
Proof.
  induction fs as [|f fs IH]; intros d values values' errs errs'; simpl.
  - intros [= _ <-]. exists []. now rewrite app_nil_r.
  - destruct (d !! name f) as [v|].
    + destruct (validate_field lib f v) as [[v'|viol]|e]; [| |discriminate].
      * apply IH.
      * intros H. apply IH in H as [more ->]. rewrite <- app_assoc. eauto.
    + destruct (default f) as [dv|].
      * apply IH.
      * intros H. apply IH in H as [more ->]. rewrite <- app_assoc. eauto.
Qed.

(** A model class refuses the record as soon as its first field is in
    error. *)
Lemma construct_refuses S (d : record) f fs v viol :
  fields S = f :: fs ->
  d !! name f = Some v ->
  validate_field lib f v = Ret (inr viol) ->
  exists e, construct lib S d = Raise e.
Proof.
  intros HS Hv Hf. unfold construct. rewrite HS. simpl. rewrite Hv, Hf.
  destruct (validate_fields lib fs d ∅ _) as [[values errs]|e] eqn:H;
    [|eauto].
  apply validate_fields_errors in H as [more ->]. simpl.
  destruct (extra S); simpl; eauto.
Qed.

(** C7, amended. A record whose url is a string is rejected by a
    validator for [ScrapedDataModel] -- [validate] returns [None] and the
    invalid counter moves by one -- when the URL type refuses the string,
    or hands it to [validate_url], stripped of the blanks around it, as a
    string that [urlparse] splits without a scheme or without a network
    location. *)
Theorem validate_rejects_incomplete_url self (d : record) s :
  model_class self = construct lib (ScrapedDataModel lib) ->
  d !! "url" = Some (VStr s) ->
  (forall v, coerce lib THttpUrl (VStr s) = Some v ->
     exists s' parsed,
       v = VStr s' /\ urlparse lib s' = Ret parsed /\
       (scheme parsed = "" \/ netloc parsed = "")) ->
  fst (validate self d) = None /\
  invalid_count (snd (validate self d)) = invalid_count self + 1 /\
  valid_count (snd (validate self d)) = valid_count self.
Proof.
  intros Hmc Hurl Hty.
  assert (exists viol,
            validate_field lib
              {| name := "url"; type := THttpUrl; allow_none := false;
                 default := None; max_length := None;
                 validators := [validate_url lib] |} (VStr s)
            = Ret (inr viol)) as [viol Hviol].
  { unfold validate_field. simpl.
    destruct (coerce lib THttpUrl (VStr s)) as [v|] eqn:Hc; [|eauto].
    destruct (Hty v eq_refl) as (s' & parsed & -> & Hparse & Hlack).
    simpl. rewrite Hparse.
    destruct Hlack as [-> | ->]; simpl; rewrite ?andb_false_r; simpl; eauto. }
  destruct (construct_refuses (ScrapedDataModel lib) d _ _ (VStr s) viol
              eq_refl Hurl Hviol) as [e He].
  rewrite <- Hmc in He.
  destruct (validate_rejects self d e He) as (? & _ & ? & ?). auto.
Qed.








End Model.

(** C7, as stated, fails where the URL type strips a character that
    [urlparse] keeps: the url of [padded_page] starts with a no-break
    space, so [urlparse] finds neither a scheme nor a network location in
    it, and yet the record is accepted, with the stripped url. *)
Lemma validate_accepts_url_behind_no_break_space :
  padded_page !! "url" = Some (VStr (nbsp ++ "https://a.test/p")) /\
  urlparse stripping_lib (nbsp ++ "https://a.test/p")
  = Ret {| scheme := ""; netloc := "" |} /\
  match
    validate (fresh (construct stripping_lib (ScrapedDataModel stripping_lib)))
      padded_page
  with
  | (Some m, self) =>
      m !! "url" = Some (VStr "https://a.test/p") /\
      valid_count self = 1 /\ invalid_count self = 0
  | (None, _) => False
  end.
Proof. vm_compute. repeat split. Qed.

Lemma validate_rejects_incomplete_url_witness :
  fst (validate (fresh (construct plain_lib (ScrapedDataModel plain_lib)))
         bare_page) = None /\
  invalid_count
    (snd (validate (fresh (construct plain_lib (ScrapedDataModel plain_lib)))
            bare_page)) = 0 + 1 /\
  valid_count
    (snd (validate (fresh (construct plain_lib (ScrapedDataModel plain_lib)))
            bare_page)) = 0.
Proof.
  apply (validate_rejects_incomplete_url plain_lib
           (fresh (construct plain_lib (ScrapedDataModel plain_lib)))
           bare_page "a.test/p").
  - reflexivity.
  - vm_compute. reflexivity.
  - intros v [= <-]. exists "a.test/p", {| scheme := ""; netloc := "" |}.
    split; [reflexivity|]. split; [vm_compute; reflexivity|]. left. reflexivity.
Defined.


End ValidatorProps.

(** ** More on the fetcher: first success, timing, the two variants *)

Module FetcherMore.
Import Py Fetcher Observations.

Section Run.

Variable net : nat -> transport_outcome.
Variables (url : string) (retries timeout : Z) (backoff_factor : Q).

Local Abbreviation loop a k :=
  (for_each (map Z.of_nat (seq a k))
     (fetch_html_attempt net url retries timeout backoff_factor)).

Local Abbreviation step_eq := (FetcherProps.loop_step net url retries timeout backoff_factor).

(** Every request of a run but the last one met a retryable failure. *)
Lemma loop_only_last_stops k : forall a w i,
  (issued w <= i)%nat -> (S i < issued (snd (loop a k w)))%nat ->
  retryable (net i) = true.
Proof.
  induction k as [|k IH]; intros a w i Hi; [simpl; lia|].
  rewrite step_eq. cbv zeta.
  destruct (fetched (net (issued w))); [simpl; lia|].
  destruct (retryable (net (issued w))) eqn:Hr; [|simpl; lia].
  destruct (Z.of_nat a <? retries - 1); [|simpl; lia].
  destruct (Qle_bool 0 (sleep_time backoff_factor (Z.of_nat a))); [|simpl; lia].
  cbn [andb]. intros Hlt.
  destruct (Nat.eq_dec i (issued w)) as [->|Hne]; [exact Hr|].
  apply (IH (S a) (emit (Sleep (sleep_time backoff_factor (Z.of_nat a)))
                      (emit Request w)) i); [simpl; lia|exact Hlt].
Qed.


End Run.




Section Session.

Variable net : nat -> transport_outcome.
Variables (s : Session) (url : string) (retries timeout : Z).

Local Abbreviation sloop a k :=
  (for_each (map Z.of_nat (seq a k))
     (fetch_html_with_session_attempt net s url retries timeout)).



End Session.

(** X2. With [retries <= 0] neither function touches the network or
    sleeps: both return [None] and leave the world as it was. *)
Theorem fetch_without_attempts net s url retries timeout backoff_factor w :
  retries <= 0 ->
  fetch_html net url retries timeout backoff_factor w = (Ret None, w) /\
  fetch_html_with_session net s url retries timeout w
  = (Ret (None, headers_update s HEADERS), w).
Proof.
  intros H. unfold fetch_html, fetch_html_with_session, bind, range.
  replace (Z.to_nat retries) with 0%nat by lia. split; reflexivity.
Qed.

Lemma fetch_without_attempts_witness :
  fetch_html (always TimesOut) "https://example.test/" 0 10 (3 # 10) initial
  = (Ret None, initial).
Proof.
  apply (fetch_without_attempts (always TimesOut) {| headers := ∅ |}
           "https://example.test/" 0 10 (3 # 10) initial).
  lia.
Defined.

(** X4. [fetch_html] never issues a request after a success or after a
    failure it does not retry: every request of a call except the last
    one met a retryable failure. *)
Theorem fetch_html_stops_at_first_final_outcome
    net url retries timeout backoff_factor w (i : nat) :
  (issued w <= i)%nat ->
  (S i < issued (snd (fetch_html net url retries timeout backoff_factor w)))%nat ->
  retryable (net i) = true.
Proof.
  rewrite FetcherProps.fetch_html_unfold. intros Hi Hlt.
  apply (loop_only_last_stops net url retries timeout backoff_factor
           (Z.to_nat retries) 0 w i Hi).
  destruct (for_each _ _ w) as [[[|r]|e] w']; exact Hlt.
Qed.

Lemma fetch_html_stops_at_first_final_outcome_witness :
  retryable (scripted [reply 500 ""; TimesOut] (reply 200 "ok") 1) = true.
Proof.
  apply (fetch_html_stops_at_first_final_outcome
           (scripted [reply 500 ""; TimesOut] (reply 200 "ok"))
           "https://example.test/" 5 10 (1 # 2) initial 1).
  - simpl. lia.
  - vm_compute. lia.
Defined.





End FetcherMore.

(** ** More on the bounded functions *)

Module LimitsMore.
Import Py Fetcher Observations.












End LimitsMore.

(** ** More on the validators: batches, reports, normalisation *)

Module ValidatorMore.
Import Py Validators Product Observations.

(** What one call of [validate] leaves, by what the model class does. *)
Lemma accepted_cons mc d l :
  accepted mc (d :: l)
  = match mc d with Ret m => m :: accepted mc l | Raise _ => accepted mc l end.
Proof. unfold accepted. simpl. destruct (mc d); reflexivity. Qed.

Lemma reported_cons mc d l :
  reported mc (d :: l)
  = match mc d with
    | Raise (ValidationError errs) =>
        {| data := d; errors := errs |} :: reported mc l
    | _ => reported mc l
    end.
Proof. unfold reported. simpl. destruct (mc d) as [|[]]; reflexivity. Qed.

Lemma refused_cons mc d l :
  refused mc (d :: l)
  = match mc d with Ret _ => refused mc l | Raise _ => d :: refused mc l end.
Proof. unfold refused. simpl. destruct (mc d); reflexivity. Qed.

Lemma accepted_app mc l1 l2 : accepted mc (l1 ++ l2) = accepted mc l1 ++ accepted mc l2.
Proof. unfold accepted. apply omap_app. Qed.

Lemma reported_app mc l1 l2 : reported mc (l1 ++ l2) = reported mc l1 ++ reported mc l2.
Proof. unfold reported. apply omap_app. Qed.

Lemma refused_app mc l1 l2 : refused mc (l1 ++ l2) = refused mc l1 ++ refused mc l2.
Proof. unfold refused. apply List.filter_app. Qed.

(** Every record is either accepted or refused. *)
Lemma accepted_refused_length mc l :
  (List.length (accepted mc l) + List.length (refused mc l))%nat = List.length l.
Proof.
  induction l as [|d l IH]; [reflexivity|].
  rewrite accepted_cons, refused_cons. destruct (mc d); simpl; lia.
Qed.

Lemma reported_refused_length mc l :
  (List.length (reported mc l) <= List.length (refused mc l))%nat.
Proof.
  induction l as [|d l IH]; [reflexivity|].
  rewrite reported_cons, refused_cons. destruct (mc d) as [|[]]; simpl; lia.
Qed.

Lemma validate_batch_loop_spec l : forall self acc,
  validate_batch_loop self l acc =
  (acc ++ accepted (model_class self) l,
   {| model_class := model_class self;
      validation_errors :=
        validation_errors self ++ reported (model_class self) l;
      valid_count :=
        valid_count self
        + Z.of_nat (List.length (accepted (model_class self) l));
      invalid_count :=
        invalid_count self
        + Z.of_nat (List.length (refused (model_class self) l)) |}).
Proof.
  induction l as [|d l IH]; intros self acc.
  - simpl. rewrite !app_nil_r, !Z.add_0_r. destruct self; reflexivity.
  - cbn [validate_batch_loop]. unfold validate.
    rewrite accepted_cons, reported_cons, refused_cons.
    destruct (model_class self d) as [m|e].
    + rewrite IH. simpl. rewrite <- app_assoc. simpl.
      do 2 f_equal. lia.
    + destruct e; rewrite IH; simpl; rewrite <- ?app_assoc; simpl;
        do 2 f_equal; lia.
Qed.

Lemma since_reset_snoc calls c :
  since_reset (calls ++ [c])
  = match c with
    | CallReset => []
    | _ => since_reset calls ++ records_of c
    end.
Proof. unfold since_reset. rewrite fold_left_app. reflexivity. Qed.

Lemma step_tally mc l c :
  step (tally mc l) c
  = match c with
    | CallReset => tally mc []
    | _ => tally mc (l ++ records_of c)
    end.
Proof.
  destruct c as [d|ds| |]; simpl.
  - unfold validate, tally. simpl.
    rewrite accepted_app, reported_app, refused_app, !length_app.
    rewrite accepted_cons, reported_cons, refused_cons.
    destruct (mc d) as [m|e]; simpl; [|destruct e; simpl];
      rewrite ?app_nil_r, ?Nat.add_0_r; f_equal; lia.
  - unfold validate_batch. rewrite validate_batch_loop_spec. simpl.
    unfold tally. simpl.
    rewrite accepted_app, reported_app, refused_app, !length_app.
    f_equal; lia.
  - rewrite app_nil_r. reflexivity.
  - reflexivity.
Qed.

(** The state of a validator is a function of the records it was handed
    since the last reset. *)
Lemma run_tally mc calls : run (tally mc []) calls = tally mc (since_reset calls).
Proof.
  induction calls as [|c calls IH] using rev_ind; [reflexivity|].
  unfold run in *. rewrite fold_left_app. simpl. rewrite IH, step_tally.
  rewrite since_reset_snoc. destruct c; reflexivity.
Qed.

Lemma init_tally available mc self :
  init available mc = Ret self -> self = tally mc [].
Proof.
  unfold init. destruct available; simpl; [|discriminate].
  intros [= <-]. reflexivity.
Qed.

(** X9. [validate_batch] returns the instances of the accepted records
    and nothing else, in the order of the input; the refused records
    leave no gap and no placeholder. *)
Theorem validate_batch_returns_accepted_in_order self (data_list : list record) :
  fst (validate_batch self data_list) = accepted (model_class self) data_list /\
  (List.length (fst (validate_batch self data_list))
   <= List.length data_list)%nat /\
  forall l1 l2,
    data_list = l1 ++ l2 ->
    fst (validate_batch self data_list)
    = fst (validate_batch self l1)
      ++ fst (validate_batch (snd (validate_batch self l1)) l2).
Proof.
  unfold validate_batch. rewrite validate_batch_loop_spec. simpl.
  split; [reflexivity|]. split.
  - pose proof (accepted_refused_length (model_class self) data_list). lia.
  - intros l1 l2 ->. rewrite !validate_batch_loop_spec. simpl.
    apply accepted_app.
Qed.

(** X10. After any history of calls on a validator that [__init__]
    built, the report is that of the records handed over since the last
    reset: [valid_count] is the number of them the model class accepts,
    [invalid_count] the number it refuses, and [errors] lists, in the
    order of submission, one entry with the raw record and its violations
    for each of them refused with a [ValidationError]. *)
Theorem report_reflects_records_since_reset
    available mc self (calls : list call) :
  init available mc = Ret self ->
  report_valid_count (get_validation_report (run self calls))
  = Z.of_nat (List.length (accepted mc (since_reset calls))) /\
  report_invalid_count (get_validation_report (run self calls))
  = Z.of_nat (List.length (refused mc (since_reset calls))) /\
  report_errors (get_validation_report (run self calls))
  = reported mc (since_reset calls).
Proof.
  intros ->%init_tally. rewrite run_tally. auto.
Qed.

Lemma report_reflects_records_since_reset_witness :
  report_errors
    (get_validation_report
       (run (fresh (construct plain_lib (ScrapedDataModel plain_lib)))
          [CallValidate bare_page; CallReset;
           CallValidateBatch [product_page; bare_page]]))
  = reported (construct plain_lib (ScrapedDataModel plain_lib))
      (since_reset [CallValidate bare_page; CallReset;
                    CallValidateBatch [product_page; bare_page]]).
Proof.
  apply (report_reflects_records_since_reset true
           (construct plain_lib (ScrapedDataModel plain_lib))).
  reflexivity.
Defined.

(** X11. The failure list never holds more entries than [invalid_count]
    counts, and it holds exactly as many when the model class raises
    nothing but [ValidationError]. *)
Theorem failure_list_within_invalid_count
    available mc self (calls : list call) :
  init available mc = Ret self ->
  Z.of_nat (List.length (validation_errors (run self calls)))
  <= invalid_count (run self calls) /\
  ((forall d e, mc d = Raise e -> exists errs, e = ValidationError errs) ->
   Z.of_nat (List.length (validation_errors (run self calls)))
   = invalid_count (run self calls)).
Proof.
  intros ->%init_tally. rewrite run_tally. simpl. split.
  - pose proof (reported_refused_length mc (since_reset calls)). lia.
  - intros Hmc. f_equal.
    induction (since_reset calls) as [|d l IH]; [reflexivity|].
    rewrite reported_cons, refused_cons.
    destruct (mc d) as [m|e] eqn:Hd; [exact IH|].
    destruct (Hmc d e Hd) as [errs ->]. simpl. f_equal. exact IH.
Qed.

Lemma failure_list_within_invalid_count_witness :
  Z.of_nat
    (List.length
       (validation_errors
          (run (fresh (construct plain_lib (InitialModel plain_lib)))
             [CallValidateBatch [blank_page; bare_page]])))
  <= invalid_count
       (run (fresh (construct plain_lib (InitialModel plain_lib)))
          [CallValidateBatch [blank_page; bare_page]]).
Proof.
  apply (failure_list_within_invalid_count true
           (construct plain_lib (InitialModel plain_lib))).
  reflexivity.
Defined.

Lemma rate_bounds (v i : Z) :
  0 <= v -> 0 <= i -> 0 < v + i ->
  (0 <= inject_Z v / inject_Z (v + i) <= 1)%Q /\
  ((inject_Z v / inject_Z (v + i) == 0)%Q <-> v = 0) /\
  ((inject_Z v / inject_Z (v + i) == 1)%Q <-> i = 0).
Proof.
  intros Hv Hi Ht.
  destruct (v + i) as [|p|p] eqn:Hp; try lia.
  unfold Qdiv, Qinv, Qmult, Qle, Qeq, inject_Z. simpl.
  rewrite !Z.mul_1_r. repeat split; intros; lia.
Qed.

(** X12. In every report of a validator that [__init__] built the
    success rate lies between 0 and 1; it is 0 exactly when no record
    counts as valid, and 1 exactly when some record was classified and
    none counts as invalid. *)
Theorem success_rate_is_a_proportion available mc self (calls : list call) :
  init available mc = Ret self ->
  (0 <= success_rate (get_validation_report (run self calls)) <= 1)%Q /\
  ((success_rate (get_validation_report (run self calls)) == 0)%Q <->
   valid_count (run self calls) = 0) /\
  ((success_rate (get_validation_report (run self calls)) == 1)%Q <->
   invalid_count (run self calls) = 0 /\ 0 < valid_count (run self calls)).
Proof.
  intros ->%init_tally. rewrite run_tally. simpl.
  set (v := Z.of_nat (List.length (accepted mc (since_reset calls)))).
  set (i := Z.of_nat (List.length (refused mc (since_reset calls)))).
  assert (Hv : 0 <= v) by (subst v; lia).
  assert (Hi : 0 <= i) by (subst i; lia).
  clearbody v i.
  destruct (Z.gtb_spec (v + i) 0) as [Ht|Ht].
  - destruct (rate_bounds v i) as (Hb & Hzero & Hone); [lia..|].
    split; [exact Hb|]. split; [exact Hzero|].
    rewrite Hone. split; [intros ->; lia|tauto].
  - assert (Hv0 : v = 0) by lia. assert (Hi0 : i = 0) by lia. subst v i.
    split; [split; discriminate|].
    split; split; try reflexivity; try discriminate.
    intros [_ Hlt]. lia.
Qed.

Lemma success_rate_is_a_proportion_witness :
  (0 <= success_rate
          (get_validation_report
             (run (fresh (construct plain_lib (ScrapedDataModel plain_lib)))
                [CallValidateBatch [product_page; bare_page; product_page]]))
   <= 1)%Q.
Proof.
  apply (success_rate_is_a_proportion true
           (construct plain_lib (ScrapedDataModel plain_lib))).
  reflexivity.
Defined.

(** X13. [validate_scraped_data] returns the accepted instances in input
    order together with a report whose two counts add up to the number
    of records, whose valid count is the number of instances returned,
    and whose errors are the failures of the input only.  (pydantic is
    there: without it the module cannot be imported.) *)
Theorem validate_scraped_data_reports_its_input
    (data_list : list record) mc :
  exists report,
    validate_scraped_data true data_list mc
    = Ret (accepted mc data_list, report) /\
    report_valid_count report
    = Z.of_nat (List.length (accepted mc data_list)) /\
    report_valid_count report + report_invalid_count report
    = Z.of_nat (List.length data_list) /\
    report_errors report = reported mc data_list.
Proof.
  unfold validate_scraped_data, init, validate_batch. simpl.
  rewrite validate_batch_loop_spec. simpl.
  eexists. split; [reflexivity|]. simpl.
  split; [reflexivity|]. split; [|reflexivity].
  pose proof (accepted_refused_length mc data_list). lia.
Qed.

Section Model.

Variable lib : Lib.

(** An exception that leaves the field pass was raised by a validator of
    one of the fields. *)
Lemma validate_fields_raise fs : forall (d values : record) errs e,
  validate_fields lib fs d values errs = Raise e ->
  exists f v1, In f fs /\ run_validators (validators f) v1 = Raise e.
Proof.
  induction fs as [|f fs IH]; intros d values errs e; simpl; [discriminate|].
  assert (Hrest : forall values' errs',
            validate_fields lib fs d values' errs' = Raise e ->
            exists g v1, (f = g \/ In g fs) /\
                         run_validators (validators g) v1 = Raise e).
  { intros values' errs' H. apply IH in H as (g & v1 & Hg & Hr). eauto 6. }
  destruct (d !! name f) as [v|].
  - destruct (validate_field lib f v) as [[v'|viol]|e'] eqn:Hf; eauto.
    intros [= ->]. exists f. revert Hf. unfold validate_field.
    destruct (coerce lib (type f) v) as [v1|];
      [destruct (check_max_length lib f v1)|];
      destruct v; try destruct (allow_none f); try discriminate; eauto.
  - destruct (default f); eauto.
Qed.

Lemma validate_title_raise v e :
  run_validators [validate_title lib] v = Raise e -> e = AttributeError.
Proof.
  unfold run_validators, validate_title.
  destruct (truthy v); [|discriminate].
  destruct v; try (intros [= <-]; reflexivity).
  destruct (negb (truthy (VStr (str_strip lib s)))); discriminate.
Qed.

(** A required first field that the input lacks heads the violations. *)
Lemma construct_missing_first S (d : record) f fs :
  fields S = f :: fs -> d !! name f = None -> default f = None ->
  (exists more,
     construct lib S d
     = Raise (ValidationError ({| loc := name f; what := Missing |} :: more)))
  \/ (exists e g v1, In g fs /\ run_validators (validators g) v1 = Raise e /\
                     construct lib S d = Raise e).
Proof.
  intros HS Hd Hdef. unfold construct. rewrite HS. simpl. rewrite Hd, Hdef.
  destruct (validate_fields lib fs d ∅ _) as [[values errs]|e] eqn:H.
  - apply ValidatorProps.validate_fields_errors in H as [more ->].
    left. exists (more ++ match extra S with
                          | Forbid =>
                              map (fun k => {| loc := k; what := ExtraForbidden |})
                                (sorted_keys (extras S d))
                          | _ => []
                          end).
    destruct (extra S); simpl; rewrite ?app_nil_r; reflexivity.
  - right. apply validate_fields_raise in H as (g & v1 & Hg & Hr). eauto 8.
Qed.

(** X14. A record without a [url] key is rejected by a validator for
    [ScrapedDataModel]: [validate] returns [None], the invalid counter
    moves by one, and when the rejection is a [ValidationError] its first
    entry says that [url] is missing. *)
Theorem validate_requires_url self (d : record) :
  model_class self = construct lib (ScrapedDataModel lib) ->
  d !! "url" = None ->
  fst (validate self d) = None /\
  invalid_count (snd (validate self d)) = invalid_count self + 1 /\
  valid_count (snd (validate self d)) = valid_count self /\
  forall errs,
    model_class self d = Raise (ValidationError errs) ->
    exists rest, errs = {| loc := "url"; what := Missing |} :: rest.
Proof.
  intros Hmc Hurl.
  assert (Hc : exists e, model_class self d = Raise e /\
            forall errs, e = ValidationError errs ->
              exists rest, errs = {| loc := "url"; what := Missing |} :: rest).
  { rewrite Hmc.
    destruct (construct_missing_first (ScrapedDataModel lib) d _ _
                eq_refl Hurl eq_refl)
      as [[more ->] | (e & g & v1 & Hg & Hr & ->)].
    - eexists. split; [reflexivity|]. intros errs [= <-]. eauto.
    - exists e. split; [reflexivity|]. intros errs ->.
      simpl in Hg. destruct Hg as [<-|[<-|[<-|[<-|[]]]]]; simpl in Hr;
        try discriminate.
      apply validate_title_raise in Hr. discriminate. }
  destruct Hc as (e & He & Hfirst).
  destruct (ValidatorProps.validate_rejects self d e He) as (? & _ & ? & ?).
  repeat split; try assumption.
  intros errs Herr. apply Hfirst. congruence.
Qed.

End Model.

Lemma validate_requires_url_witness :
  fst (validate (fresh (construct plain_lib (ScrapedDataModel plain_lib)))
         {[ "title" := VStr "Widget" ]}) = None.
Proof.
  apply (validate_requires_url plain_lib
           (fresh (construct plain_lib (ScrapedDataModel plain_lib)))
           {[ "title" := VStr "Widget" ]}).
  - reflexivity.
  - vm_compute. reflexivity.
Defined.

Section Defaults.

Variable lib : Lib.


(** X16. [validate_title] normalises a title once and for all: what it
    returns it returns again when given its own result, provided that
    stripping the stripped title changes nothing.  A title that is not
    empty and strips to the empty string becomes [None], while the empty
    title and [None] are returned as they are. *)
Theorem validate_title_is_stable v v' :
  (forall s, v = VStr s ->
     str_strip lib (str_strip lib s) = str_strip lib s) ->
  validate_title lib v = Ret v' ->
  validate_title lib v' = Ret v' /\
  (forall s, v = VStr s -> s <> "" -> str_strip lib s = "" -> v' = VNone) /\
  (v = VStr "" -> v' = VStr "") /\
  (v = VNone -> v' = VNone).
Proof.
  intros Hstrip. unfold validate_title.
  destruct (truthy v) eqn:Hv.
  - destruct v; try discriminate.
    destruct (negb (truthy (VStr (str_strip lib s)))) eqn:Hs; intros [= <-].
    + repeat split; try reflexivity; try discriminate.
      intros [= ->]. simpl in Hv. discriminate Hv.
    + rewrite negb_false_iff in Hs. rewrite Hs.
      rewrite (Hstrip s eq_refl), Hs. simpl.
      repeat split; try discriminate.
      * intros s0 [= <-] _ Hempty. rewrite Hempty in Hs. discriminate Hs.
      * intros [= ->]. simpl in Hv. discriminate Hv.
  - intros [= <-]. rewrite Hv.
    repeat split; try congruence.
    intros s -> Hne _. simpl in Hv. apply negb_false_iff, String.eqb_eq in Hv.
    contradiction.
Qed.

End Defaults.


Lemma validate_title_is_stable_witness :
  validate_title plain_lib (VStr "Widget") = Ret (VStr "Widget").
Proof.
  apply (validate_title_is_stable plain_lib (VStr " Widget ") (VStr "Widget")).
  - intros s [= <-]. vm_compute. reflexivity.
  - vm_compute. reflexivity.
Defined.

(** X17. [validate_currency] accepts a value in two cases only: a value
    that is false in a condition ([None], the empty string) comes back
    as it is, and a string whose upper-case form has exactly three
    characters comes back in upper case.  A result is accepted again
    unchanged, provided that upper-casing twice is upper-casing once. *)
Theorem validate_currency_normalises
    (str_upper : string -> string) (str_len : string -> nat) v v' :
  (forall s, v = VStr s -> str_upper (str_upper s) = str_upper s) ->
  validate_currency str_upper str_len v = Ret v' ->
  ((truthy v = false /\ v' = v) \/
   (exists s, v = VStr s /\ v' = VStr (str_upper s) /\
              str_len (str_upper s) = 3%nat)) /\
  validate_currency str_upper str_len v' = Ret v'.
Proof.
  intros Hup. unfold validate_currency.
  destruct (truthy v) eqn:Hv.
  - destruct v; try discriminate.
    destruct (Nat.eqb_spec (str_len (str_upper s)) 3) as [Hlen|Hlen];
      simpl; [|discriminate].
    intros [= <-]. split; [right; eauto|].
    destruct (truthy (VStr (str_upper s))); [|reflexivity].
    rewrite (Hup s eq_refl), Hlen. reflexivity.
  - intros [= <-]. split; [left; auto|]. rewrite Hv. reflexivity.
Qed.

Lemma validate_currency_normalises_witness :
  validate_currency plain_upper String.length (VStr "USD") = Ret (VStr "USD").
Proof.
  apply (validate_currency_normalises plain_upper String.length
           (VStr "usd") (VStr "USD")).
  - intros s [= <-]. vm_compute. reflexivity.
  - vm_compute. reflexivity.
Defined.

End ValidatorMore.
